(** * A shallow embedding of [notte_mcp_server.py]

    The development models the proxy-candidate failover of
    [_run_notte_sync] and its caller-facing wrapper [run_notte].  Python
    exceptions are the [Raise] branch of [res]; the process environment
    ([os.environ]) and a trace of the calls made to external collaborators
    are threaded through a small state-and-exception monad [M].  External
    collaborators (the Notte SDK, ipinfo.io, DNS, the FastCloud API) and the
    library functions the code relies on ([urlparse], the optional
    [NotteProxy] constructors) are record fields, so every theorem holds for
    every behaviour of them. *)

From Stdlib Require Import String Ascii List ZArith Bool.
Import ListNotations.
Open Scope string_scope.
Open Scope list_scope.
Set Warnings "-register-all".

(** ** Python values *)

(** A Python exception, by its rendering ([str(e)] or [traceback.format_exc()]). *)
Definition exn := string.

(** Result of a Python computation: a value or a raised exception. *)
Inductive res (A : Type) : Type :=
| Ok (a : A)
| Raise (e : exn).
Arguments Ok {A} a.
Arguments Raise {A} e.

Definition res_bind {A B} (r : res A) (k : A -> res B) : res B :=
  match r with Ok a => k a | Raise e => Raise e end.

(** JSON values as returned by [r.json()]; [JNull] is Python's [None]. *)
Inductive json : Type :=
| JNull
| JBool (b : bool)
| JNum (z : Z)
| JStr (s : string)
| JArr (l : list json)
| JObj (kv : list (string * json)).

(** Python truthiness. *)
Definition truthy (v : json) : bool :=
  match v with
  | JNull => false
  | JBool b => b
  | JNum z => negb (Z.eqb z 0)
  | JStr s => negb (String.eqb s "")
  | JArr l => match l with [] => false | _ => true end
  | JObj kv => match kv with [] => false | _ => true end
  end.

(** Truthiness of an [Optional[str]]. *)
Definition str_truthy (o : option string) : bool :=
  match o with Some s => negb (String.eqb s "") | None => false end.

(** A JSON object with a repeated key keeps the last binding. *)
Definition obj_lookup (kv : list (string * json)) (k : string) : option json :=
  option_map snd (find (fun p => String.eqb (fst p) k) (rev kv)).

(** [v.get(k, default)]: only a dict has [get]. *)
Definition py_get (v : json) (k : string) (default : json) : res json :=
  match v with
  | JObj kv => Ok (match obj_lookup kv k with Some x => x | None => default end)
  | _ => Raise "AttributeError: object has no attribute 'get'"
  end.

Definition ascii_lower (c : ascii) : ascii :=
  let n := nat_of_ascii c in
  if (65 <=? n)%nat && (n <=? 90)%nat then ascii_of_nat (n + 32) else c.

Fixpoint lower (s : string) : string :=
  match s with
  | EmptyString => EmptyString
  | String c s' => String (ascii_lower c) (lower s')
  end.

(** [v.lower()]: only a string has [lower]. *)
Definition py_lower (v : json) : res string :=
  match v with
  | JStr s => Ok (lower s)
  | _ => Raise "AttributeError: object has no attribute 'lower'"
  end.

(** [str.isspace] on the code points 0 to 255: the ASCII whitespace, the
    separators [\x1c]-[\x1f], [\x85] and [\xa0]. *)
Definition is_space (c : ascii) : bool :=
  match nat_of_ascii c with
  | 32 | 9 | 10 | 11 | 12 | 13 | 28 | 29 | 30 | 31 | 133 | 160 => true
  | _ => false
  end%nat.

Fixpoint lstrip (s : string) : string :=
  match s with
  | EmptyString => EmptyString
  | String c s' => if is_space c then lstrip s' else s
  end.

Fixpoint rev_string (s : string) (acc : string) : string :=
  match s with
  | EmptyString => acc
  | String c s' => rev_string s' (String c acc)
  end.

(** [s.strip()] on the ASCII whitespace. *)
Definition strip (s : string) : string :=
  rev_string (lstrip (rev_string (lstrip s) EmptyString)) EmptyString.

(** ** The Notte SDK objects *)

(** A [NotteProxy] object, by the descriptor the SDK built it from. *)
Inductive NotteProxy : Type :=
| MkNotteProxy (descr : string).

(** The keyword arguments of [client.Session(...)] that vary
    ([solve_captchas=True] and the agent's [max_steps=8] are constants),
    together with the [url] given to [agent.run]. *)
Record session_args : Type := {
  sa_browser_type : string;
  sa_headless : bool;
  sa_proxies : option NotteProxy;
  sa_locale : string;
  sa_target_url : string
}.

(** Fields of the object [urlparse] returns that the code reads; reading
    [.port] raises [ValueError] on a malformed port. *)
Record parsed_url : Type := {
  pu_scheme : string;
  pu_hostname : option string;
  pu_port : res (option Z)
}.

(** Library behaviour the code depends on.  [None] for a [NotteProxy]
    constructor is [hasattr(NotteProxy, ...)] being false. *)
Record Lib : Type := {
  urlparse : string -> res parsed_url;
  from_url : option (string -> res (option NotteProxy));
  from_host_port : option (string -> Z -> string -> res (option NotteProxy))
}.

(** External collaborators.  [ipinfo] is [requests.get] of ipinfo.io, then
    [raise_for_status] and [r.json()]: its answer depends on the proxy the
    process environment routes the request through.  [fastcloud] is the
    authenticated discovery [GET]; [session] is [client.Session] with the
    agent run, answering [getattr(resp, "answer", resp)]. *)
Record World : Type := {
  notte_client : string -> res unit;
  from_country : string -> res (option NotteProxy);
  session : session_args -> res json;
  ipinfo : option string -> res json;
  gethostbyname : string -> res string;
  fastcloud : string -> string -> res json
}.

(** ** State, trace and the monad *)

(** Calls made to external collaborators, in order. *)
Inductive event : Type :=
| EvClient (api_key : string)
| EvFromCountry (code : string)
| EvSession (a : session_args)
| EvTry (cand : json)
| EvResolve (host : string)
| EvDiscover (api_url token : string)
| EvGeo (egress : option string).

Record state : Type := {
  env : string -> option string;
  trace : list event
}.

Definition M (A : Type) : Type := state -> res A * state.

Definition ret {A} (a : A) : M A := fun s => (Ok a, s).

Definition bind {A B} (m : M A) (k : A -> M B) : M B :=
  fun s => match m s with
           | (Ok a, s') => k a s'
           | (Raise e, s') => (Raise e, s')
           end.

Notation "x <- m ;; k" := (bind m (fun x => k))
  (at level 61, m at next level, right associativity).
Notation "m ;;; k" := (bind m (fun _ => k))
  (at level 61, right associativity).

Definition lift {A} (r : res A) : M A := fun s => (r, s).

Definition get_env : M (string -> option string) := fun s => (Ok (env s), s).

Definition emit (ev : event) : M unit :=
  fun s => (Ok tt, {| env := env s; trace := trace s ++ [ev] |}).

Definition env_set (e : string -> option string) (k v : string)
  : string -> option string :=
  fun k' => if String.eqb k' k then Some v else e k'.

Definition modify_env (f : (string -> option string) -> string -> option string)
  : M unit :=
  fun s => (Ok tt, {| env := f (env s); trace := trace s |}).

(** [os.getenv(k, default)]. *)
Definition getenv (e : string -> option string) (k d : string) : string :=
  match e k with Some v => v | None => d end.

(** ** The program *)

(** Values recorded in [last_err]. *)
Inductive reason : Type :=
| RBrIp (cand : json) (ip : json)   (* f"candidate {cand} resulted in BR IP {ipaddr}" *)
| RSession (tb : exn).              (* traceback.format_exc() of a failed session *)

Inductive route : Type :=
| notte_proxy_br
| mcp_proxy_used
| no_mcp_candidates
| mcp_all_failed.

(** The ["error"] field of an error dict. *)
Inductive error_field : Type :=
| ErrApiKey                          (* "NOTTE_API_KEY nao definido." *)
| ErrNoCandidates                    (* "Nenhum candidato de MCP router encontrado ..." *)
| ErrLast (last_err : option reason).

(** The dict returned to the caller. *)
Inductive result_dict : Type :=
| ResOk (r : route) (candidate : option json) (result : json)
| ResError (r : option route) (error : error_field).

Definition status (d : result_dict) : string :=
  match d with ResOk _ _ _ => "ok" | ResError _ _ => "error" end.

(** Parameters of [_run_notte_sync]. *)
Record sync_args : Type := {
  api_key : string;
  target_url : string;
  browser_type : string;
  headless : bool;
  locale : string;
  mcp_proxy_url : option string;
  mcp_router_hostname : option string;
  fastcloud_api_url : option string;
  fastcloud_api_token : option string;
  skip_geo_check : bool;
  force_use_mcp_router : bool
}.

(** Parameters of the [run_notte] tool. *)
Record run_params : Type := {
  p_target_url : option string;
  p_headless : option bool;
  p_browser_type : option string;
  p_locale : option string;
  p_use_mcp_router : option bool;
  p_skip_geo_check : option bool
}.

Definition proxy_env_keys : list string :=
  ["ALL_PROXY"; "all_proxy"; "HTTP_PROXY"; "http_proxy"; "HTTPS_PROXY"; "https_proxy"].

(** One scheme's entry of [urllib.request.getproxies_environment]: the
    lower-case variable wins when it is set, and an empty one removes the
    entry; otherwise a non-empty upper-case variable gives it. *)
Definition proxy_entry (e : string -> option string) (lo up : string) : option string :=
  match e lo with
  | Some v => if String.eqb v "" then None else Some v
  | None => match e up with
            | Some v => if String.eqb v "" then None else Some v
            | None => None
            end
  end.

(** The proxy [requests] routes the https request to ipinfo.io through:
    the [https] entry, else the [all] entry.  [no_proxy] is not modelled:
    the environments considered set no bypass for ipinfo.io. *)
Definition egress (e : string -> option string) : option string :=
  match proxy_entry e "https_proxy" "HTTPS_PROXY" with
  | Some v => Some v
  | None => proxy_entry e "all_proxy" "ALL_PROXY"
  end.

(** [_str_to_bool]. *)
Definition _str_to_bool (val : option string) (default : bool) : bool :=
  match val with
  | None => default
  | Some v =>
      let t := lower (strip v) in
      String.eqb t "1" || String.eqb t "true" || String.eqb t "yes" || String.eqb t "on"
  end.

Section Program.

Variable L : Lib.
Variable W : World.

(** Second [try] block of [_make_notte_proxy_from_url]: [Some r] when it
    returns [r]; [None] when it raises (caught) or falls through. *)
Definition host_port_attempt (url : string) : option (option NotteProxy) :=
  match urlparse L url with
  | Raise _ => None
  | Ok parsed =>
      let scheme := if String.eqb (pu_scheme parsed) "" then "http" else pu_scheme parsed in
      let host := pu_hostname parsed in
      match pu_port parsed with
      | Raise _ => None
      | Ok port =>
          match host, port, from_host_port L with
          | Some h, Some n, Some f =>
              if negb (String.eqb h "") && negb (Z.eqb n 0) then
                match f h n scheme with Ok r => Some r | Raise _ => None end
              else None
          | _, _, _ => None
          end
      end
  end.

(** First [try] block: [hasattr(NotteProxy, "from_url")] and its result. *)
Definition from_url_attempt (url : string) : option (option NotteProxy) :=
  match from_url L with
  | Some f => match f url with Ok r => Some r | Raise _ => None end
  | None => None
  end.

(** [_make_notte_proxy_from_url]. *)
Definition _make_notte_proxy_from_url (url : json) : res (option NotteProxy) :=
  if negb (truthy url) then Ok None else
  match url with
  | JStr s =>
      let u := strip s in
      match from_url_attempt u with
      | Some r => Ok r
      | None => match host_port_attempt u with Some r => Ok r | None => Ok None end
      end
  | _ => Raise "AttributeError: object has no attribute 'strip'"
  end.

(** [_set_env_proxy_vars]: overwrites the six proxy variables. *)
Definition _set_env_proxy_vars (url : json) : M unit :=
  if negb (truthy url) then ret tt else
  match url with
  | JStr u => modify_env (fun e => fold_left (fun e k => env_set e k u) proxy_env_keys e)
  | _ => lift (Raise "TypeError: str expected")
  end.

Inductive geo_result : Type :=
| GeoOk (data : json)
| GeoErr (msg : string).

(** [_is_ip_outside_brazil]: every failure is caught. *)
Definition _is_ip_outside_brazil : M geo_result :=
  e <- get_env ;;
  emit (EvGeo (egress e)) ;;;
  match ipinfo W (egress e) with
  | Ok data => ret (GeoOk data)
  | Raise err => ret (GeoErr err)
  end.

(** [_resolve_hostname]. *)
Definition _resolve_hostname (hostname : string) : M (option string) :=
  emit (EvResolve hostname) ;;;
  match gethostbyname W hostname with
  | Ok ip => ret (Some ip)
  | Raise _ => ret None
  end.

(** The body of the [try] in [_discover_mcp_router_via_fastcloud]. *)
Definition discovery_payload (payload : json) : res (option json) :=
  res_bind (py_get payload "router_address" JNull) (fun a =>
  res_bind (if truthy a then Ok a else py_get payload "proxy_url" JNull) (fun addr =>
  Ok (if truthy addr then Some addr else None))).

(** [_discover_mcp_router_via_fastcloud]. *)
Definition _discover_mcp_router_via_fastcloud (api_url token : string) : M (option json) :=
  if String.eqb api_url "" || String.eqb token "" then ret None else
  emit (EvDiscover api_url token) ;;;
  match fastcloud W api_url token with
  | Raise _ => ret None
  | Ok payload =>
      match discovery_payload payload with
      | Ok r => ret r
      | Raise _ => ret None
      end
  end.

(** Candidate for [MCP_ROUTER_HOSTNAME]: used as is when it carries a
    scheme and a host, else resolved into [socks5://IP:1080], else
    [socks5://hostname:1080]. *)
Definition router_candidate (hostname : string) : M json :=
  parsed <- lift (urlparse L hostname) ;;
  if negb (String.eqb (pu_scheme parsed) "") && str_truthy (pu_hostname parsed) then
    ret (JStr (strip hostname))
  else
    resolved <- _resolve_hostname hostname ;;
    if str_truthy resolved then
      ret (JStr ("socks5://" ++ match resolved with Some ip => ip | None => "" end ++ ":1080"))
    else
      ret (JStr ("socks5://" ++ hostname ++ ":1080")).

(** The [candidates] list of [_run_notte_sync], appended in the order
    [MCP_PROXY_URL], [MCP_ROUTER_HOSTNAME], FastCloud discovery. *)
Definition build_candidates (a : sync_args) : M (list json) :=
  let c_explicit :=
    match mcp_proxy_url a with
    | Some u => if str_truthy (Some u) then [JStr (strip u)] else []
    | None => []
    end in
  c_router <- (match mcp_router_hostname a with
               | Some h => if str_truthy (Some h) then (c <- router_candidate h ;; ret [c])
                           else ret []
               | None => ret []
               end) ;;
  c_discovered <- (if str_truthy (fastcloud_api_url a) && str_truthy (fastcloud_api_token a) then
                     d <- _discover_mcp_router_via_fastcloud
                            (match fastcloud_api_url a with Some x => x | None => "" end)
                            (match fastcloud_api_token a with Some x => x | None => "" end) ;;
                     ret (match d with Some x => if truthy x then [x] else [] | None => [] end)
                   else ret []) ;;
  ret (c_explicit ++ c_router ++ c_discovered).

(** The session [_session_with_proxies] opens. *)
Definition session_args_of (a : sync_args) (proxies_obj : option NotteProxy) : session_args :=
  {| sa_browser_type := browser_type a; sa_headless := headless a;
     sa_proxies := proxies_obj; sa_locale := locale a;
     sa_target_url := target_url a |}.

(** [_session_with_proxies]; the [try] around each call turns its
    exception into a value. *)
Definition _session_with_proxies (a : sync_args) (proxies_obj : option NotteProxy)
  : M (res json) :=
  emit (EvSession (session_args_of a proxies_obj)) ;;;
  ret (session W (session_args_of a proxies_obj)).

(** The optional egress check of a candidate, lines 219-232: [Some r] when
    the candidate is skipped with [last_err = r]. *)
Definition geo_gate (cand : json) : M (option reason) :=
  geo <- _is_ip_outside_brazil ;;
  match geo with
  | GeoOk data =>
      country <- lift (res_bind (py_get data "country" (JStr "")) py_lower) ;;
      ipaddr <- lift (py_get data "ip" (JStr "")) ;;
      if String.eqb country "br" then ret (Some (RBrIp cand ipaddr)) else ret None
  | GeoErr _ => ret None
  end.

(** The body of the loop once [proxies_obj] is applied: the optional geo
    check, then the session; [next] continues the loop with a new
    [last_err]. *)
Definition candidate_attempt (a : sync_args) (cand : json) (proxies_obj : option NotteProxy)
  (next : option reason -> M result_dict) : M result_dict :=
  rejected <- (if skip_geo_check a then ret None else geo_gate cand) ;;
  match rejected with
  | Some r => next (Some r)
  | None =>
      outcome <- _session_with_proxies a proxies_obj ;;
      match outcome with
      | Ok answer => ret (ResOk mcp_proxy_used (Some cand) answer)
      | Raise tb => next (Some (RSession tb))
      end
  end.

(** The [for cand in candidates] loop, with [last_err] as accumulator. *)
Fixpoint try_candidates (a : sync_args) (cands : list json) (last_err : option reason)
  : M result_dict :=
  match cands with
  | [] => ret (ResError (Some mcp_all_failed) (ErrLast last_err))
  | cand :: rest =>
      emit (EvTry cand) ;;;
      proxies_obj <- lift (_make_notte_proxy_from_url cand) ;;
      (match proxies_obj with None => _set_env_proxy_vars cand | Some _ => ret tt end) ;;;
      candidate_attempt a cand proxies_obj (try_candidates a rest)
  end.

(** Step 1 of [_run_notte_sync]: [Some d] when it returns [d]. *)
Definition primary_phase (a : sync_args) : M (option result_dict) :=
  if force_use_mcp_router a then ret None else
  emit (EvFromCountry "br") ;;;
  match from_country W "br" with
  | Ok (Some p) =>
      outcome <- _session_with_proxies a (Some p) ;;
      match outcome with
      | Ok answer => ret (Some (ResOk notte_proxy_br None answer))
      | Raise _ => ret None
      end
  | _ => ret None
  end.

(** Step 2 of [_run_notte_sync], from line 175 on. *)
Definition mcp_phase (a : sync_args) : M result_dict :=
  candidates <- build_candidates a ;;
  match candidates with
  | [] => ret (ResError (Some no_mcp_candidates) ErrNoCandidates)
  | _ => try_candidates a candidates None
  end.

(** [_run_notte_sync]. *)
Definition _run_notte_sync (a : sync_args) : M result_dict :=
  emit (EvClient (api_key a)) ;;;
  lift (notte_client W (api_key a)) ;;;
  primary <- primary_phase a ;;
  match primary with
  | Some d => ret d
  | None => mcp_phase a
  end.

(** The arguments [run_notte] passes to [_run_notte_sync]. *)
Definition final_args (e : string -> option string) (api : string) (p : run_params)
  : sync_args :=
  let env_target := getenv e "TARGET_URL" "https://shopee.com.br" in
  let env_headless := _str_to_bool (Some (getenv e "HEADLESS" "False")) false in
  let env_browser := getenv e "BROWSER_TYPE" "firefox" in
  let env_locale := getenv e "LOCALE" "pt-BR" in
  let or_str o d := match o with Some v => if String.eqb v "" then d else v | None => d end in
  {| api_key := api;
     target_url := or_str (p_target_url p) env_target;
     browser_type := or_str (p_browser_type p) env_browser;
     headless := match p_headless p with Some b => b | None => env_headless end;
     locale := or_str (p_locale p) env_locale;
     mcp_proxy_url := Some (strip (getenv e "MCP_PROXY_URL" ""));
     mcp_router_hostname := Some (strip (getenv e "MCP_ROUTER_HOSTNAME" ""));
     fastcloud_api_url := Some (strip (getenv e "FASTCLOUD_API_URL" ""));
     fastcloud_api_token := Some (strip (getenv e "FASTCLOUD_API_TOKEN" ""));
     skip_geo_check := match p_skip_geo_check p with
                       | Some b => b
                       | None => _str_to_bool (Some (getenv e "SKIP_GEO_CHECK" "False")) false
                       end;
     force_use_mcp_router := match p_use_mcp_router p with
                             | Some b => b
                             | None => _str_to_bool (Some (getenv e "FORCE_USE_MCP_ROUTER" "False")) false
                             end |}.

(** [run_notte]: the API-key check, then [_run_notte_sync] on a worker
    thread, whose exceptions [anyio.to_thread.run_sync] re-raises. *)
Definition run_notte (p : run_params) : M result_dict :=
  e <- get_env ;;
  let api := getenv e "NOTTE_API_KEY" "" in
  if String.eqb api "" || String.eqb api "SUA_CHAVE_API_PRO" then
    ret (ResError None ErrApiKey)
  else _run_notte_sync (final_args e api p).

End Program.

(** ** The [health] tool *)

Definition SERVER_NAME : string := "notte-mcp".

(** The ["env"] part of the dict [health] returns. *)
Record health_env : Type := {
  NOTTE_API_KEY_set : bool;
  h_TARGET_URL : string;
  MCP_PROXY_URL_set : bool;
  h_MCP_ROUTER_HOSTNAME : string;
  FASTCLOUD_API_URL_set : bool;
  h_HEADLESS : string;
  h_BROWSER_TYPE : string;
  h_LOCALE : string
}.

Record health_report : Type := {
  server : string;
  health_env_of : health_env
}.

(** [health]: [bool(os.getenv(k))] is [str_truthy]. *)
Definition health : M health_report :=
  e <- get_env ;;
  ret {| server := SERVER_NAME;
         health_env_of :=
           {| NOTTE_API_KEY_set := str_truthy (e "NOTTE_API_KEY");
              h_TARGET_URL := getenv e "TARGET_URL" "https://shopee.com.br";
              MCP_PROXY_URL_set := str_truthy (e "MCP_PROXY_URL");
              h_MCP_ROUTER_HOSTNAME := getenv e "MCP_ROUTER_HOSTNAME" "";
              FASTCLOUD_API_URL_set := str_truthy (e "FASTCLOUD_API_URL");
              h_HEADLESS := getenv e "HEADLESS" "False";
              h_BROWSER_TYPE := getenv e "BROWSER_TYPE" "firefox";
              h_LOCALE := getenv e "LOCALE" "pt-BR" |} |}.

(** ** Concrete collaborators for the examples *)

(** What Python's [urlparse] returns on the strings the examples use; a
    string without [//] has no scheme-relative netloc, so no hostname. *)
Definition sample_urlparse (u : string) : res parsed_url :=
  if String.eqb u "socks5://10.0.0.2:1080" then
    Ok {| pu_scheme := "socks5"; pu_hostname := Some "10.0.0.2"; pu_port := Ok (Some 1080%Z) |}
  else if String.eqb u "socks5://203.0.113.4" then
    Ok {| pu_scheme := "socks5"; pu_hostname := Some "203.0.113.4"; pu_port := Ok None |}
  else Ok {| pu_scheme := ""; pu_hostname := None; pu_port := Ok None |}.

(** An SDK whose [NotteProxy] has [from_host_port] but no [from_url]. *)
Definition sample_lib : Lib :=
  {| urlparse := sample_urlparse;
     from_url := None;
     from_host_port := Some (fun h _ _ => Ok (Some (MkNotteProxy h))) |}.

Definition sample_world (client : res unit) (geo : option string -> res json)
  (sess : session_args -> res json) : World :=
  {| notte_client := fun _ => client;
     from_country := fun _ => Ok (Some (MkNotteProxy "br"));
     session := sess;
     ipinfo := geo;
     gethostbyname := fun _ => Raise "socket.gaierror";
     fastcloud := fun _ _ => Raise "requests.exceptions.ConnectionError" |}.

(** ipinfo.io answering [BR] for the direct route and [US] through a proxy. *)
Definition geo_by_route (eg : option string) : res json :=
  match eg with
  | None => Ok (JObj [("ip", JStr "200.1.1.1"); ("country", JStr "BR")])
  | Some _ => Ok (JObj [("ip", JStr "203.0.113.4"); ("country", JStr "US")])
  end.

Definition env_of (l : list (string * string)) : string -> option string :=
  fun k => option_map snd (find (fun p => String.eqb (fst p) k) l).

Definition start (l : list (string * string)) : state :=
  {| env := env_of l; trace := [] |}.

Definition forced : run_params :=
  {| p_target_url := None; p_headless := None; p_browser_type := None;
     p_locale := None; p_use_mcp_router := Some true; p_skip_geo_check := None |}.

Definition u_bad := "socks5://203.0.113.4".
Definition u_good := "socks5://10.0.0.2:1080".

(** [_run_notte_sync] arguments with every other setting left empty. *)
Definition sample_args (force skip : bool) (explicit router : option string) : sync_args :=
  {| api_key := "k"; target_url := "https://shopee.com.br"; browser_type := "firefox";
     headless := false; locale := "pt-BR";
     mcp_proxy_url := explicit; mcp_router_hostname := router;
     fastcloud_api_url := Some ""; fastcloud_api_token := Some "";
     skip_geo_check := skip; force_use_mcp_router := force |}.

(** [_run_notte_sync] arguments with all three candidate sources set. *)
Definition all_sources_args : sync_args :=
  {| api_key := "k"; target_url := "https://shopee.com.br"; browser_type := "firefox";
     headless := false; locale := "pt-BR";
     mcp_proxy_url := Some u_bad; mcp_router_hostname := Some "router.lan";
     fastcloud_api_url := Some "https://fastcloud.example/api"; fastcloud_api_token := Some "tok";
     skip_geo_check := false; force_use_mcp_router := true |}.

Definition answer_ok (_ : session_args) : res json := Ok (JStr "resumo").


(** A world whose DNS knows [router.lan] and whose FastCloud API answers
    [payload]. *)
Definition lab_world (payload : json) : World :=
  {| notte_client := fun _ => Ok tt;
     from_country := fun _ => Ok None;
     session := answer_ok;
     ipinfo := geo_by_route;
     gethostbyname := fun h => if String.eqb h "router.lan" then Ok "10.0.0.9"
                               else Raise "socket.gaierror";
     fastcloud := fun _ _ => Ok payload |}.

(** Sessions fail without a [NotteProxy] object and succeed with one. *)
Definition direct_fails (sa : session_args) : res json :=
  match sa_proxies sa with None => Raise "tb-direct" | Some _ => Ok (JStr "resumo") end.

(** Every session fails, with a traceback telling the two routes apart. *)
Definition all_fail (sa : session_args) : res json :=
  match sa_proxies sa with None => Raise "tb1" | Some _ => Raise "tb2" end.

Definition no_params : run_params :=
  {| p_target_url := None; p_headless := None; p_browser_type := None;
     p_locale := None; p_use_mcp_router := None; p_skip_geo_check := None |}.

(** The environment variables [run_notte] reads. *)
Definition config_keys : list string :=
  ["NOTTE_API_KEY"; "TARGET_URL"; "HEADLESS"; "BROWSER_TYPE"; "LOCALE";
   "MCP_PROXY_URL"; "MCP_ROUTER_HOSTNAME"; "FASTCLOUD_API_URL";
   "FASTCLOUD_API_TOKEN"; "FORCE_USE_MCP_ROUTER"; "SKIP_GEO_CHECK"].

(** ** Observations on runs *)

(** [Optional[str]] as a Python value. *)
Definition py_str (u : option string) : json :=
  match u with Some s => JStr s | None => JNull end.

Definition try_of (ev : event) : list json :=
  match ev with EvTry c => [c] | _ => [] end.

Definition session_of (ev : event) : list session_args :=
  match ev with EvSession x => [x] | _ => [] end.

Definition geo_of (ev : event) : list (option string) :=
  match ev with EvGeo eg => [eg] | _ => [] end.

Definition from_country_of (ev : event) : list string :=
  match ev with EvFromCountry c => [c] | _ => [] end.

(** Candidates tried by the loop (the [print] at line 212), in order. *)
Definition tried (t : list event) : list json := flat_map try_of t.

(** Session attempts, in order. *)
Definition sessions (t : list event) : list session_args := flat_map session_of t.

(** The session step 1 of [_run_notte_sync] opens, if any. *)
Definition primary_attempts (W : World) (a : sync_args) : list session_args :=
  if force_use_mcp_router a then []
  else match from_country W "br" with
       | Ok (Some p) => [session_args_of a (Some p)]
       | _ => []
       end.

(** The per-candidate reasons an error dict carries. *)
Definition recorded_reasons (d : result_dict) : list reason :=
  match d with
  | ResError _ (ErrLast (Some r)) => [r]
  | _ => []
  end.

(** [m] only moves the state along [R]. *)
Definition respects (R : state -> state -> Prop) {A} (m : M A) : Prop :=
  forall s r s', m s = (r, s') -> R s s'.

(** Steps that add no event of a given kind. *)
Definition same_obs {X} (f : event -> list X) (s s' : state) : Prop :=
  flat_map f (trace s') = flat_map f (trace s).

(** ** Theorems *)

(** *** Frame reasoning over [M] *)

Section Respects.

Variable R : state -> state -> Prop.
Hypothesis R_refl : forall s, R s s.
Hypothesis R_trans : forall s1 s2 s3, R s1 s2 -> R s2 s3 -> R s1 s3.

Lemma respects_ret {A} (a : A) : respects R (ret a).
Proof. intros s r s' H. injection H as _ <-. apply R_refl. Qed.

Lemma respects_lift {A} (x : res A) : respects R (lift x).
Proof. intros s r s' H. injection H as _ <-. apply R_refl. Qed.

Lemma respects_get_env : respects R get_env.
Proof. intros s r s' H. injection H as _ <-. apply R_refl. Qed.

Lemma respects_bind {A B} (m : M A) (k : A -> M B) :
  respects R m -> (forall a, respects R (k a)) -> respects R (bind m k).
Proof.
  intros Hm Hk s r s' H. unfold bind in H.
  destruct (m s) as [[a|e] s1] eqn:E.
  - eapply R_trans; [eapply Hm; exact E | eapply Hk; exact H].
  - injection H as _ <-. eapply Hm; exact E.
Qed.

End Respects.

Lemma same_obs_refl {X} (f : event -> list X) s : same_obs f s s.
Proof. reflexivity. Qed.

Lemma same_obs_trans {X} (f : event -> list X) s1 s2 s3 :
  same_obs f s1 s2 -> same_obs f s2 s3 -> same_obs f s1 s3.
Proof. unfold same_obs; congruence. Qed.

Lemma emit_same_obs {X} (f : event -> list X) ev :
  f ev = [] -> respects (same_obs f) (emit ev).
Proof.
  intros Hev s r s' H. injection H as _ <-. unfold same_obs; cbn.
  rewrite flat_map_app. cbn. rewrite Hev. apply app_nil_r.
Qed.

Lemma modify_env_same_obs {X} (f : event -> list X) g : respects (same_obs f) (modify_env g).
Proof. intros s r s' H. injection H as _ <-. reflexivity. Qed.

Ltac frame_step :=
  first
    [ apply (respects_bind _ (same_obs_trans _)); [ | intro ]
    | apply (respects_ret _ (same_obs_refl _))
    | apply (respects_lift _ (same_obs_refl _))
    | apply (respects_get_env _ (same_obs_refl _))
    | apply modify_env_same_obs
    | apply emit_same_obs; reflexivity
    | progress match goal with
               | |- respects _ (match ?x with _ => _ end) => destruct x
               end ].

Ltac frames := repeat frame_step.

Abbreviation same_tried := (same_obs try_of) (only parsing).

Lemma tried_app t1 t2 : tried (t1 ++ t2) = tried t1 ++ tried t2.
Proof. unfold tried. apply flat_map_app. Qed.

Lemma same_tried_trans s1 s2 s3 : same_tried s1 s2 -> same_tried s2 s3 -> same_tried s1 s3.
Proof. apply same_obs_trans. Qed.

Lemma set_env_proxy_vars_same_tried u : respects same_tried (_set_env_proxy_vars u).
Proof. unfold _set_env_proxy_vars; frames. Qed.

Lemma geo_gate_same_tried W cand : respects same_tried (geo_gate W cand).
Proof. unfold geo_gate, _is_ip_outside_brazil; frames. Qed.

Lemma session_same_tried W a po : respects same_tried (_session_with_proxies W a po).
Proof. unfold _session_with_proxies; frames. Qed.

Lemma build_candidates_same_tried L W a : respects same_tried (build_candidates L W a).
Proof.
  unfold build_candidates, router_candidate, _resolve_hostname,
    _discover_mcp_router_via_fastcloud; frames.
Qed.

Lemma try_candidates_cons (L : Lib) (W : World) (a : sync_args) (cand : json)
  (rest : list json) (last_err : option reason) :
  try_candidates L W a (cand :: rest) last_err =
  (emit (EvTry cand) ;;;
   proxies_obj <- lift (_make_notte_proxy_from_url L cand) ;;
   (match proxies_obj with None => _set_env_proxy_vars cand | Some _ => ret tt end) ;;;
   candidate_attempt W a cand proxies_obj (try_candidates L W a rest)).
Proof. reflexivity. Qed.

(** C10: [_make_notte_proxy_from_url] never raises on [None] or a string;
    it returns [None] on [None] or [""], and [None] when neither
    [NotteProxy.from_url] nor the host/port construction produces a value. *)
Theorem make_notte_proxy_from_url_total (L : Lib) (u : option string) :
  exists r, _make_notte_proxy_from_url L (py_str u) = Ok r /\
    (str_truthy u = false -> r = None) /\
    (forall s, u = Some s -> from_url_attempt L (strip s) = None ->
       host_port_attempt L (strip s) = None -> r = None).
Proof.
  destruct u as [s|]; cbn.
  - unfold _make_notte_proxy_from_url; cbn.
    destruct (String.eqb s "") eqn:Hs; cbn.
    + exists None; repeat split; intros; reflexivity.
    + destruct (from_url_attempt L (strip s)) as [r|] eqn:Hf.
      * exists r; split; [reflexivity|]. split; [discriminate|].
        intros s' Hs' Hf'. injection Hs' as <-. congruence.
      * destruct (host_port_attempt L (strip s)) as [r|] eqn:Hh.
        -- exists r; split; [reflexivity|]. split; [discriminate|].
           intros s' Hs' _ Hh'. injection Hs' as <-. congruence.
        -- exists None; repeat split; intros; reflexivity.
  - exists None; repeat split; intros; first [reflexivity | discriminate].
Qed.

(** C2: with [force_use_mcp_router = false], a BR proxy from
    [NotteProxy.from_country] and a successful session, [_run_notte_sync]
    returns [{"status": "ok", "route": "notte_proxy_br"}] after exactly the
    client, the [from_country] call and that session: no geo check, and no
    candidate of the fallback path is built, resolved, discovered or tried;
    the environment is untouched. *)
Theorem home_country_direct_success (L : Lib) (W : World) (a : sync_args) (s : state)
  (p : NotteProxy) (answer : json) :
  force_use_mcp_router a = false ->
  notte_client W (api_key a) = Ok tt ->
  from_country W "br" = Ok (Some p) ->
  session W (session_args_of a (Some p)) = Ok answer ->
  _run_notte_sync L W a s =
    (Ok (ResOk notte_proxy_br None answer),
     {| env := env s;
        trace := trace s ++ [EvClient (api_key a); EvFromCountry "br";
                             EvSession (session_args_of a (Some p))] |}).
Proof.
  intros Hf Hc Hp Hs.
  unfold _run_notte_sync, primary_phase, _session_with_proxies, bind, emit, lift, ret.
  cbn. rewrite Hc, Hf. cbn. rewrite Hp, Hs. cbn.
  rewrite <- !app_assoc. reflexivity.
Qed.

(** C4: with [skip_geo_check = false], once a candidate is applied:
    when ipinfo.io answers an object whose ["country"], lower-cased, is
    ["br"], the loop moves on to the next candidate with
    [last_err = "candidate ... resulted in BR IP ..."] and no session is
    opened for it; when the ipinfo.io request fails, the candidate is not
    rejected and its session is opened. *)
Theorem geo_check_gates_session (W : World) (a : sync_args) (cand : json)
  (proxies_obj : option NotteProxy) (next : option reason -> M result_dict) (s : state) :
  skip_geo_check a = false ->
  (forall data c ip,
     ipinfo W (egress (env s)) = Ok data ->
     py_get data "country" (JStr "") = Ok (JStr c) ->
     lower c = "br" ->
     py_get data "ip" (JStr "") = Ok ip ->
     candidate_attempt W a cand proxies_obj next s =
       next (Some (RBrIp cand ip))
            {| env := env s; trace := trace s ++ [EvGeo (egress (env s))] |}) /\
  (forall err,
     ipinfo W (egress (env s)) = Raise err ->
     candidate_attempt W a cand proxies_obj next s =
       let s2 := {| env := env s;
                    trace := trace s ++ [EvGeo (egress (env s));
                                         EvSession (session_args_of a proxies_obj)] |} in
       match session W (session_args_of a proxies_obj) with
       | Ok answer => (Ok (ResOk mcp_proxy_used (Some cand) answer), s2)
       | Raise tb => next (Some (RSession tb)) s2
       end).
Proof.
  intros Hskip. split.
  - intros data c ip Hgeo Hc Hbr Hip.
    unfold candidate_attempt, geo_gate, _is_ip_outside_brazil, bind, get_env, emit, lift, ret.
    rewrite Hskip. cbn. rewrite Hgeo. cbn. rewrite Hc. cbn. rewrite Hbr, Hip. cbn.
    reflexivity.
  - intros err Hgeo.
    unfold candidate_attempt, geo_gate, _is_ip_outside_brazil, _session_with_proxies,
      bind, get_env, emit, lift, ret.
    rewrite Hskip. cbn. rewrite Hgeo. cbn. rewrite <- app_assoc. cbn.
    destruct (session W (session_args_of a proxies_obj)); reflexivity.
Qed.

(** One candidate attempt either ends the loop without trying another
    candidate, with a success or an exception, or hands a reason to [next]. *)
Lemma candidate_attempt_cases W a cand po next s r s' :
  candidate_attempt W a cand po next s = (r, s') ->
  (same_tried s s' /\
   ((exists answer, r = Ok (ResOk mcp_proxy_used (Some cand) answer)) \/
    (exists e, r = Raise e))) \/
  (exists rsn s1, same_tried s s1 /\ next (Some rsn) s1 = (r, s')).
Proof.
  intros H. unfold candidate_attempt, bind in H.
  destruct ((if skip_geo_check a then ret None else geo_gate W cand) s)
    as [[rej|e] s1] eqn:E1.
  2:{ injection H as <- <-. left. split; [|right; eauto].
      destruct (skip_geo_check a).
      - injection E1 as _ <-. reflexivity.
      - eapply geo_gate_same_tried; exact E1. }
  assert (T1 : same_tried s s1).
  { destruct (skip_geo_check a).
    - injection E1 as _ <-. reflexivity.
    - eapply geo_gate_same_tried; exact E1. }
  destruct rej as [rsn|].
  - right. exists rsn, s1. auto.
  - destruct (_session_with_proxies W a po s1) as [[o|e] s2] eqn:E2.
    + assert (T2 : same_tried s1 s2) by (eapply session_same_tried; exact E2).
      destruct o as [answer|tb].
      * injection H as <- <-. left. split; [eapply same_tried_trans; eauto | left; eauto].
      * right. exists (RSession tb), s2. split; [eapply same_tried_trans; eauto | exact H].
    + injection H as <- <-. left. split; [|right; eauto].
      eapply same_tried_trans; [exact T1|]. eapply session_same_tried; exact E2.
Qed.

(** The loop tries a prefix of its list, in order, each candidate once. *)
Lemma try_candidates_tried L W a cands :
  forall le s r s', try_candidates L W a cands le s = (r, s') ->
  exists k, tried (trace s') = tried (trace s) ++ firstn k cands.
Proof.
  induction cands as [|cand rest IH]; intros le s r s' H.
  - injection H as _ <-. exists 0. symmetry. apply app_nil_r.
  - rewrite try_candidates_cons in H. unfold bind at 1, emit at 1 in H.
    set (s1 := {| env := env s; trace := trace s ++ [EvTry cand] |}) in H.
    assert (T1 : tried (trace s1) = tried (trace s) ++ [cand]).
    { cbn. rewrite tried_app. reflexivity. }
    unfold bind at 1, lift at 1 in H.
    destruct (_make_notte_proxy_from_url L cand) as [po|e].
    2:{ injection H as _ <-. exists 1. exact T1. }
    unfold bind at 1 in H.
    destruct ((match po with None => _set_env_proxy_vars cand | Some _ => ret tt end) s1)
      as [[u|e] s2] eqn:E2.
    2:{ injection H as _ Hs. subst s'. exists 1.
        assert (same_tried s1 s2) as T by
          (destruct po; [injection E2 as _ <-; reflexivity
                        | eapply set_env_proxy_vars_same_tried; exact E2]).
        unfold same_obs in T; fold (tried (trace s)) in *; unfold tried in *. rewrite T. exact T1. }
    assert (T2 : same_tried s1 s2) by
      (destruct po; [injection E2 as _ <-; reflexivity
                    | eapply set_env_proxy_vars_same_tried; exact E2]).
    apply candidate_attempt_cases in H as [[T3 _] | [rsn [s3 [T3 H3]]]].
    + exists 1. unfold same_obs in *; fold (tried (trace s)) in *; unfold tried in *. rewrite T3, T2. exact T1.
    + destruct (IH _ _ _ _ H3) as [k Hk]. exists (S k).
      unfold same_obs in *; fold (tried (trace s)) in *; unfold tried in *. rewrite Hk, T3, T2, T1. cbn.
      rewrite <- app_assoc. reflexivity.
Qed.

(** The shape of the candidate list: the explicit URL, then the router
    candidate, then at most one discovered address. *)
(** The answer of the discovery call does not depend on the state. *)
Lemma discover_fst_state_indep W api_url token s0 s1 :
  fst (_discover_mcp_router_via_fastcloud W api_url token s0)
  = fst (_discover_mcp_router_via_fastcloud W api_url token s1).
Proof.
  unfold _discover_mcp_router_via_fastcloud, bind, emit, ret.
  destruct (String.eqb api_url "" || String.eqb token ""); [reflexivity|].
  destruct (fastcloud W api_url token) as [payload|e]; [destruct (discovery_payload payload)|];
    reflexivity.
Qed.

Lemma build_candidates_shape L W a s cands s1 :
  build_candidates L W a s = (Ok cands, s1) ->
  exists c_router c_disc,
    cands = (match mcp_proxy_url a with
             | Some u => if str_truthy (Some u) then [JStr (strip u)] else []
             | None => []
             end) ++ c_router ++ c_disc /\
    (forall h, mcp_router_hostname a = Some h -> str_truthy (Some h) = true ->
       exists c s2, router_candidate L W h s = (Ok c, s2) /\ c_router = [c]) /\
    (str_truthy (mcp_router_hostname a) = false -> c_router = []) /\
    (str_truthy (fastcloud_api_url a) && str_truthy (fastcloud_api_token a) = false ->
       c_disc = []) /\
    (str_truthy (fastcloud_api_url a) && str_truthy (fastcloud_api_token a) = true ->
       forall s0,
       c_disc = match fst (_discover_mcp_router_via_fastcloud W
                             (match fastcloud_api_url a with Some x => x | None => "" end)
                             (match fastcloud_api_token a with Some x => x | None => "" end) s0) with
                | Ok (Some x) => if truthy x then [x] else []
                | _ => []
                end) /\
    length c_disc <= 1.
Proof.
  intros H. unfold build_candidates in H. unfold bind at 1 in H.
  match type of H with
  | context [match ?m s with _ => _ end] => destruct (m s) as [[c_router|e] s2] eqn:E1
  end; [|discriminate].
  unfold bind at 1 in H.
  match type of H with
  | context [match ?m s2 with _ => _ end] => destruct (m s2) as [[c_disc|e] s3] eqn:E2
  end; [|discriminate].
  injection H as <- _.
  exists c_router, c_disc. split; [reflexivity|]. split; [|split; [|split; [|split]]].
  - intros h Hh Ht. rewrite Hh, Ht in E1. unfold bind in E1.
    destruct (router_candidate L W h s) as [[c|e] s4] eqn:E3; [|discriminate].
    injection E1 as <- _. exists c, s4. auto.
  - intros Hf. destruct (mcp_router_hostname a) as [h|]; cbn in Hf.
    + destruct (String.eqb h "") eqn:Hh; [|discriminate].
      cbn in E1. rewrite Hh in E1. cbn in E1. injection E1 as <- _. reflexivity.
    + injection E1 as <- _. reflexivity.
  - intros Hf. rewrite Hf in E2. injection E2 as <- _. reflexivity.
  - intros Ht s0. rewrite Ht in E2. unfold bind in E2.
    rewrite (discover_fst_state_indep W _ _ s0 s2).
    destruct (_discover_mcp_router_via_fastcloud W _ _ s2) as [[d|e] s4];
      [|discriminate E2].
    injection E2 as <- _. destruct d; reflexivity.
  - destruct (str_truthy (fastcloud_api_url a) && str_truthy (fastcloud_api_token a)).
    + unfold bind in E2.
      match type of E2 with
      | context [match ?m s2 with _ => _ end] => destruct (m s2) as [[d|e] s4]
      end; [|discriminate].
      injection E2 as <- _.
      destruct d as [x|]; [destruct (truthy x)|]; cbn; auto.
    + injection E2 as <- _. cbn; auto.
Qed.

(** C3: the fallback scan builds its candidates in the order
    [MCP_PROXY_URL] (when set), the [MCP_ROUTER_HOSTNAME] candidate (when
    set), the FastCloud-discovered address (only when URL and token are
    set, and then exactly the truthy address the discovery call returns),
    and then tries them in exactly that order: the candidates tried
    are a prefix of that list, each tried once. *)
Theorem fallback_candidates_in_precedence_order (L : Lib) (W : World) (a : sync_args)
  (s : state) (cands : list json) (s1 : state) :
  build_candidates L W a s = (Ok cands, s1) ->
  (exists c_router c_disc,
     cands = (match mcp_proxy_url a with
              | Some u => if str_truthy (Some u) then [JStr (strip u)] else []
              | None => []
              end) ++ c_router ++ c_disc /\
     (forall h, mcp_router_hostname a = Some h -> str_truthy (Some h) = true ->
        exists c s2, router_candidate L W h s = (Ok c, s2) /\ c_router = [c]) /\
     (str_truthy (mcp_router_hostname a) = false -> c_router = []) /\
     (str_truthy (fastcloud_api_url a) && str_truthy (fastcloud_api_token a) = false ->
        c_disc = []) /\
     (str_truthy (fastcloud_api_url a) && str_truthy (fastcloud_api_token a) = true ->
        forall s0,
        c_disc = match fst (_discover_mcp_router_via_fastcloud W
                              (match fastcloud_api_url a with Some x => x | None => "" end)
                              (match fastcloud_api_token a with Some x => x | None => "" end) s0) with
                 | Ok (Some x) => if truthy x then [x] else []
                 | _ => []
                 end) /\
     length c_disc <= 1) /\
  (forall r s', mcp_phase L W a s = (r, s') ->
     exists k, tried (trace s') = tried (trace s) ++ firstn k cands).
Proof.
  intros H. split; [exact (build_candidates_shape L W a s cands s1 H)|].
  intros r s' Hp. unfold mcp_phase, bind in Hp. rewrite H in Hp.
  assert (T : same_tried s s1) by (eapply build_candidates_same_tried; exact H).
  destruct cands as [|c rest].
  - injection Hp as _ <-. exists 0. unfold same_obs in T; fold (tried (trace s)) in *; unfold tried in *. rewrite T. cbn.
    symmetry; apply app_nil_r.
  - destruct (try_candidates_tried L W a (c :: rest) None s1 r s' Hp) as [k Hk].
    exists k. unfold same_obs in T; fold (tried (trace s)) in *; unfold tried in *. rewrite Hk, T. reflexivity.
Qed.

Lemma build_candidates_same_sessions L W a : respects (same_obs session_of) (build_candidates L W a).
Proof.
  unfold build_candidates, router_candidate, _resolve_hostname,
    _discover_mcp_router_via_fastcloud; frames.
Qed.

Lemma primary_phase_sessions W a s s' :
  primary_phase W a s = (Ok None, s') ->
  sessions (trace s') = sessions (trace s) ++ primary_attempts W a.
Proof.
  unfold primary_phase, primary_attempts, _session_with_proxies, bind, emit, ret.
  destruct (force_use_mcp_router a).
  - intros H; inversion H; subst. symmetry; apply app_nil_r.
  - cbn. destruct (from_country W "br") as [[p|]|e]; cbn;
      [destruct (session W (session_args_of a (Some p))) | | ];
      intros H; inversion H; subst; unfold sessions; cbn;
      rewrite ?flat_map_app; cbn; rewrite ?app_nil_r, <- ?app_assoc; reflexivity.
Qed.

(** C5: when the fallback scan is reached (client built, step 1 returned
    nothing) and the candidate list it builds is empty, [_run_notte_sync]
    returns [{"status": "error", "route": "no_mcp_candidates"}]; the scan
    opens no session and tries no candidate: the only session of the call,
    if any, is the failed attempt with the BR proxy of step 1. *)
Theorem no_candidates_no_session (L : Lib) (W : World) (a : sync_args) (s0 s2 s3 : state) :
  notte_client W (api_key a) = Ok tt ->
  primary_phase W a {| env := env s0; trace := trace s0 ++ [EvClient (api_key a)] |}
    = (Ok None, s2) ->
  build_candidates L W a s2 = (Ok [], s3) ->
  _run_notte_sync L W a s0 = (Ok (ResError (Some no_mcp_candidates) ErrNoCandidates), s3) /\
  sessions (trace s3) = sessions (trace s0) ++ primary_attempts W a /\
  tried (trace s3) = tried (trace s0).
Proof.
  intros Hc Hp Hb.
  assert (Ts : same_obs session_of s2 s3)
    by (eapply build_candidates_same_sessions; exact Hb).
  assert (Tt : same_tried s2 s3) by (eapply build_candidates_same_tried; exact Hb).
  split; [|split].
  - unfold _run_notte_sync, bind at 1, emit at 1, bind at 1, lift at 1.
    rewrite Hc. unfold bind at 1. rewrite Hp. unfold mcp_phase, bind. rewrite Hb.
    reflexivity.
  - apply primary_phase_sessions in Hp. unfold same_obs in Ts. unfold sessions in *.
    rewrite Ts, Hp. cbn. rewrite flat_map_app. cbn. rewrite app_nil_r. reflexivity.
  - assert (Tp : same_tried {| env := env s0; trace := trace s0 ++ [EvClient (api_key a)] |} s2).
    { assert (Rp : respects same_tried (primary_phase W a))
        by (unfold primary_phase, _session_with_proxies; frames).
      eapply Rp; exact Hp. }
    unfold same_obs in Tt, Tp. unfold tried. rewrite Tt, Tp. cbn.
    rewrite flat_map_app. cbn. apply app_nil_r.
Qed.

(** A loop that ends in an error dict went past its first candidate with a
    new [last_err]. *)
Lemma try_candidates_error_step L W a c rest le s ro e s' :
  try_candidates L W a (c :: rest) le s = (Ok (ResError ro e), s') ->
  exists rsn s1, try_candidates L W a rest (Some rsn) s1 = (Ok (ResError ro e), s').
Proof.
  intros H. rewrite try_candidates_cons in H.
  unfold bind at 1, emit at 1, bind at 1, lift at 1 in H.
  destruct (_make_notte_proxy_from_url L c) as [po|err]; [|discriminate].
  unfold bind at 1 in H.
  match type of H with
  | context [match ?m ?st with _ => _ end] =>
      match m with
      | match po with _ => _ end => destruct (m st) as [[u|err] s2]
      end
  end; [|discriminate].
  apply candidate_attempt_cases in H as [[_ [[answer Hr] | [err Hr]]] | [rsn [s1 [_ H]]]];
    try discriminate.
  exists rsn, s1. exact H.
Qed.

Lemma try_candidates_cons_last_err L W a c rest le le' :
  try_candidates L W a (c :: rest) le = try_candidates L W a (c :: rest) le'.
Proof. reflexivity. Qed.

(** C1 (amended): when the loop over a non-empty candidate list ends in
    [{"status": "error", "route": "mcp_all_failed"}], its ["error"] is one
    reason, the one recorded for the last candidate, as the last candidate's
    attempt alone produces it from the state the earlier ones left, whatever
    was recorded for the earlier ones. *)
Theorem all_failed_reports_last_reason (L : Lib) (W : World) (a : sync_args)
  (l : list json) (c : json) (le : option reason) (s : state) (e : error_field) (s' : state) :
  try_candidates L W a (l ++ [c]) le s = (Ok (ResError (Some mcp_all_failed) e), s') ->
  exists s1 r, e = ErrLast (Some r) /\
    forall le', try_candidates L W a [c] le' s1
                = (Ok (ResError (Some mcp_all_failed) (ErrLast (Some r))), s').
Proof.
  revert le s. induction l as [|d l IH]; intros le s H.
  - cbn [app] in H. pose proof H as H0.
    apply try_candidates_error_step in H0 as [rsn [s1 H1]].
    cbn in H1. injection H1 as <- <-.
    exists s, rsn. split; [reflexivity|].
    intros le'. rewrite (try_candidates_cons_last_err L W a c [] le' le). exact H.
  - cbn [app] in H. apply try_candidates_error_step in H as [rsn [s1 H1]].
    exact (IH _ _ H1).
Qed.

(** C6 (amended): [run_notte] validates nothing but [NOTTE_API_KEY]: a
    missing, empty or placeholder key is answered at once with an error
    dict and no collaborator call; otherwise [_run_notte_sync] runs with the
    arguments as given, a non-empty [target_url] or [browser_type] passed
    through unchecked (an empty or missing one taking the unchecked
    environment default). *)
Theorem run_notte_checks_only_api_key (L : Lib) (W : World) (p : run_params) (s : state) :
  let api := getenv (env s) "NOTTE_API_KEY" "" in
  ((api = "" \/ api = "SUA_CHAVE_API_PRO") ->
     run_notte L W p s = (Ok (ResError None ErrApiKey), s)) /\
  (api <> "" -> api <> "SUA_CHAVE_API_PRO" ->
     run_notte L W p s = _run_notte_sync L W (final_args (env s) api p) s /\
     (forall t, p_target_url p = Some t -> t <> "" ->
        target_url (final_args (env s) api p) = t) /\
     (forall b, p_browser_type p = Some b -> b <> "" ->
        browser_type (final_args (env s) api p) = b) /\
     ((p_target_url p = None \/ p_target_url p = Some "") ->
        target_url (final_args (env s) api p) = getenv (env s) "TARGET_URL" "https://shopee.com.br") /\
     ((p_browser_type p = None \/ p_browser_type p = Some "") ->
        browser_type (final_args (env s) api p) = getenv (env s) "BROWSER_TYPE" "firefox")).
Proof.
  intros api. split.
  - intros Hk. unfold run_notte, bind, get_env. fold api.
    destruct Hk as [Hk|Hk]; rewrite Hk; reflexivity.
  - intros H1 H2. split; [|split; [|split; [|split]]].
    + unfold run_notte, bind, get_env. fold api.
      apply String.eqb_neq in H1, H2. rewrite H1, H2. reflexivity.
    + intros t Ht Hne. unfold final_args; cbn. rewrite Ht.
      apply String.eqb_neq in Hne. rewrite Hne. reflexivity.
    + intros b Hb Hne. unfold final_args; cbn. rewrite Hb.
      apply String.eqb_neq in Hne. rewrite Hne. reflexivity.
    + intros [Ht|Ht]; unfold final_args; cbn; rewrite Ht; reflexivity.
    + intros [Hb|Hb]; unfold final_args; cbn; rewrite Hb; reflexivity.
Qed.

(** ** Concrete runs *)

(** C1: two candidates both failing their session: the error dict carries
    the traceback of the second one only. *)
Lemma all_failed_keeps_only_last_error :
  let '(r, s) := run_notte sample_lib (sample_world (Ok tt) geo_by_route all_fail) forced
                   (start [("NOTTE_API_KEY", "k"); ("MCP_PROXY_URL", u_bad);
                           ("MCP_ROUTER_HOSTNAME", u_good)]) in
  r = Ok (ResError (Some mcp_all_failed) (ErrLast (Some (RSession "tb2")))) /\
  tried (trace s) = [JStr u_bad; JStr u_good] /\
  match r with
  | Ok d => recorded_reasons d <> [RSession "tb1"; RSession "tb2"]
  | Raise _ => False
  end.
Proof. vm_compute. split; [reflexivity|]. split; [reflexivity|]. discriminate. Qed.

(** C6: an empty target URL (argument and [TARGET_URL] both empty) and an
    unknown browser reach the session; the call succeeds. *)
Lemma empty_target_and_unknown_browser_not_rejected :
  let p := {| p_target_url := Some ""; p_headless := None; p_browser_type := Some "netscape";
              p_locale := None; p_use_mcp_router := None; p_skip_geo_check := None |} in
  let '(r, s) := run_notte sample_lib (sample_world (Ok tt) geo_by_route answer_ok) p
                   (start [("NOTTE_API_KEY", "k"); ("TARGET_URL", "")]) in
  r = Ok (ResOk notte_proxy_br None (JStr "resumo")) /\
  sessions (trace s) =
    [{| sa_browser_type := "netscape"; sa_headless := false;
        sa_proxies := Some (MkNotteProxy "br"); sa_locale := "pt-BR"; sa_target_url := "" |}].
Proof. vm_compute. split; reflexivity. Qed.

(** C7: [MCP_PROXY_URL] without a port builds no [NotteProxy], so the six
    proxy variables are set to it; the router candidate that follows does
    build one and leaves them alone: its ipinfo.io check still goes out
    through the first candidate, and so does everything after the call. *)
Lemma env_proxy_of_earlier_candidate_leaks :
  let '(r, s) := run_notte sample_lib (sample_world (Ok tt) geo_by_route direct_fails) forced
                   (start [("NOTTE_API_KEY", "k"); ("MCP_PROXY_URL", u_bad);
                           ("MCP_ROUTER_HOSTNAME", u_good)]) in
  r = Ok (ResOk mcp_proxy_used (Some (JStr u_good)) (JStr "resumo")) /\
  trace s =
    [EvClient "k";
     EvTry (JStr u_bad); EvGeo (Some u_bad);
     EvSession (session_args_of (sample_args true false None None) None);
     EvTry (JStr u_good); EvGeo (Some u_bad);
     EvSession (session_args_of (sample_args true false None None)
                  (Some (MkNotteProxy "10.0.0.2")))] /\
  egress (env s) = Some u_bad.
Proof. vm_compute. split; [reflexivity | split; reflexivity]. Qed.

(** C8: two identical calls in one process, with the same configuration
    variables and the same collaborators, answer differently: the first
    call left the proxy variables pointing at its fallback candidate, so
    the second call's ipinfo.io check of [MCP_PROXY_URL] no longer sees a
    BR address. *)
Lemma second_call_sees_first_call_proxy :
  let cfg := [("NOTTE_API_KEY", "k"); ("MCP_PROXY_URL", u_good);
              ("MCP_ROUTER_HOSTNAME", u_bad)] in
  let w := sample_world (Ok tt) geo_by_route answer_ok in
  let '(r1, s1) := run_notte sample_lib w forced (start cfg) in
  let '(r2, _) := run_notte sample_lib w forced s1 in
  r1 = Ok (ResOk mcp_proxy_used (Some (JStr u_bad)) (JStr "resumo")) /\
  r2 = Ok (ResOk mcp_proxy_used (Some (JStr u_good)) (JStr "resumo")) /\
  map (env s1) config_keys = map (env_of cfg) config_keys.
Proof. vm_compute. split; [reflexivity | split; reflexivity]. Qed.

(** C9: an exception of the [NotteClient] constructor, and an ipinfo.io
    answer whose ["country"] is [null], escape [run_notte] as exceptions
    rather than as a result dict. *)
Lemma collaborator_exceptions_escape_run_notte :
  fst (run_notte sample_lib
         (sample_world (Raise "notte_sdk: invalid api key") geo_by_route answer_ok)
         no_params (start [("NOTTE_API_KEY", "k")]))
    = Raise "notte_sdk: invalid api key" /\
  fst (run_notte sample_lib
         (sample_world (Ok tt)
            (fun _ => Ok (JObj [("ip", JStr "10.0.0.2"); ("country", JNull)])) answer_ok)
         forced (start [("NOTTE_API_KEY", "k"); ("MCP_PROXY_URL", u_good)]))
    = Raise "AttributeError: object has no attribute 'lower'".
Proof. vm_compute. split; reflexivity. Qed.

(** ** Witnesses *)

Lemma make_notte_proxy_from_url_total_witness :
  exists r, _make_notte_proxy_from_url sample_lib (py_str (Some " socks5://203.0.113.4 ")) = Ok r /\
    (str_truthy (Some " socks5://203.0.113.4 ") = false -> r = None) /\
    (forall s, Some " socks5://203.0.113.4 " = Some s -> from_url_attempt sample_lib (strip s) = None ->
       host_port_attempt sample_lib (strip s) = None -> r = None).
Proof. exact (make_notte_proxy_from_url_total sample_lib (Some " socks5://203.0.113.4 ")). Defined.

Lemma home_country_direct_success_witness :
  force_use_mcp_router (sample_args false false None None) = false /\
  _run_notte_sync sample_lib (sample_world (Ok tt) geo_by_route answer_ok)
    (sample_args false false None None) (start []) =
    (Ok (ResOk notte_proxy_br None (JStr "resumo")),
     {| env := env (start []);
        trace := trace (start []) ++
                 [EvClient "k"; EvFromCountry "br";
                  EvSession (session_args_of (sample_args false false None None)
                               (Some (MkNotteProxy "br")))] |}).
Proof.
  split; [reflexivity|].
  exact (home_country_direct_success sample_lib (sample_world (Ok tt) geo_by_route answer_ok)
           (sample_args false false None None) (start []) (MkNotteProxy "br") (JStr "resumo")
           eq_refl eq_refl eq_refl eq_refl).
Defined.

Lemma geo_check_gates_session_witness :
  let w := sample_world (Ok tt) geo_by_route answer_ok in
  let a := sample_args true false None None in
  candidate_attempt w a (JStr u_good) (Some (MkNotteProxy "10.0.0.2"))
    (try_candidates sample_lib w a []) (start []) =
  try_candidates sample_lib w a [] (Some (RBrIp (JStr u_good) (JStr "200.1.1.1")))
    {| env := env (start []); trace := trace (start []) ++ [EvGeo (egress (env (start [])))] |}.
Proof.
  intros w a.
  exact (proj1 (geo_check_gates_session w a (JStr u_good) (Some (MkNotteProxy "10.0.0.2"))
                  (try_candidates sample_lib w a []) (start []) eq_refl)
           (JObj [("ip", JStr "200.1.1.1"); ("country", JStr "BR")]) "BR" (JStr "200.1.1.1")
           eq_refl eq_refl eq_refl eq_refl).
Defined.

Lemma fallback_candidates_in_precedence_order_witness :
  (exists c_router c_disc,
     fst (build_candidates sample_lib (lab_world (JObj [("router_address", JStr u_good)]))
            all_sources_args (start []))
       = Ok ([JStr u_bad] ++ c_router ++ c_disc) /\
     c_router = [JStr "socks5://10.0.0.9:1080"] /\
     c_disc = [JStr u_good]) /\
  forall r s', mcp_phase sample_lib (lab_world (JObj [("router_address", JStr u_good)]))
                 all_sources_args (start []) = (r, s') ->
    exists k, tried (trace s') = tried (trace (start [])) ++
                firstn k [JStr u_bad; JStr "socks5://10.0.0.9:1080"; JStr u_good].
Proof.
  pose (x := build_candidates sample_lib (lab_world (JObj [("router_address", JStr u_good)]))
               all_sources_args (start [])).
  destruct (fallback_candidates_in_precedence_order sample_lib
              (lab_world (JObj [("router_address", JStr u_good)])) all_sources_args (start [])
              [JStr u_bad; JStr "socks5://10.0.0.9:1080"; JStr u_good] (snd x)
              (surjective_pairing x))
    as [[cr [cd [Hc [Hr [_ [_ [Hd _]]]]]]] Hk].
  split; [|exact Hk].
  exists cr, cd. split.
  { transitivity (Ok (A := list json) [JStr u_bad; JStr "socks5://10.0.0.9:1080"; JStr u_good]);
      [reflexivity|]. rewrite Hc. reflexivity. }
  split.
  - destruct (Hr "router.lan" eq_refl eq_refl) as [c [s2 [Hrc ->]]].
    vm_compute in Hrc. injection Hrc as <- _. reflexivity.
  - rewrite (Hd eq_refl (start [])). vm_compute. reflexivity.
Defined.

Lemma no_candidates_no_session_witness :
  let w := sample_world (Ok tt) geo_by_route all_fail in
  let a := sample_args false false None None in
  let s0 := start [] in
  let s1 := {| env := env s0; trace := trace s0 ++ [EvClient (api_key a)] |} in
  let s2 := snd (primary_phase w a s1) in
  let s3 := snd (build_candidates sample_lib w a s2) in
  _run_notte_sync sample_lib w a s0 = (Ok (ResError (Some no_mcp_candidates) ErrNoCandidates), s3) /\
  sessions (trace s3) = sessions (trace s0) ++ primary_attempts w a /\
  tried (trace s3) = tried (trace s0).
Proof.
  intros w a s0 s1 s2 s3.
  exact (no_candidates_no_session sample_lib w a s0 s2 s3 eq_refl eq_refl eq_refl).
Defined.

Lemma all_failed_reports_last_reason_witness :
  let w := sample_world (Ok tt) geo_by_route all_fail in
  let a := sample_args true true None None in
  let run := try_candidates sample_lib w a ([JStr u_bad] ++ [JStr u_good]) None (start []) in
  exists s1 r, ErrLast (Some (RSession "tb2")) = ErrLast (Some r) /\
    forall le', try_candidates sample_lib w a [JStr u_good] le' s1
                = (Ok (ResError (Some mcp_all_failed) (ErrLast (Some r))), snd run).
Proof.
  intros w a run.
  exact (all_failed_reports_last_reason sample_lib w a [JStr u_bad] (JStr u_good) None (start [])
           (ErrLast (Some (RSession "tb2"))) (snd run) eq_refl).
Defined.

Lemma run_notte_checks_only_api_key_witness :
  run_notte sample_lib (sample_world (Ok tt) geo_by_route answer_ok) no_params
    (start [("NOTTE_API_KEY", "SUA_CHAVE_API_PRO")])
  = (Ok (ResError None ErrApiKey), start [("NOTTE_API_KEY", "SUA_CHAVE_API_PRO")]) /\
  target_url (final_args (env_of [("NOTTE_API_KEY", "k"); ("TARGET_URL", "")]) "k"
                {| p_target_url := Some ""; p_headless := None; p_browser_type := None;
                   p_locale := None; p_use_mcp_router := None; p_skip_geo_check := None |}) = "".
Proof.
  split.
  - exact (proj1 (run_notte_checks_only_api_key sample_lib
                    (sample_world (Ok tt) geo_by_route answer_ok) no_params
                    (start [("NOTTE_API_KEY", "SUA_CHAVE_API_PRO")]))
             (or_intror eq_refl)).
  - destruct (proj2 (run_notte_checks_only_api_key sample_lib
                       (sample_world (Ok tt) geo_by_route answer_ok)
                       {| p_target_url := Some ""; p_headless := None; p_browser_type := None;
                          p_locale := None; p_use_mcp_router := None; p_skip_geo_check := None |}
                       (start [("NOTTE_API_KEY", "k"); ("TARGET_URL", "")]))
                ltac:(discriminate) ltac:(discriminate)) as [_ [_ [_ [Ht _]]]].
    exact (Ht (or_intror eq_refl)).
Defined.

(** ** Further properties of the program *)








(** [health] reports [NOTTE_API_KEY_set] from the variable's truthiness
    only: a missing or empty key reads unset, and [run_notte] rejects it;
    the placeholder ["SUA_CHAVE_API_PRO"] reads set, yet [run_notte]
    rejects it too.  [health] changes no state. *)
Theorem health_api_key_vs_run_notte (L : Lib) (W : World) (p : run_params) (s : state) :
  (exists h, health s = (Ok h, s) /\
     NOTTE_API_KEY_set (health_env_of h) = str_truthy (env s "NOTTE_API_KEY")) /\
  (str_truthy (env s "NOTTE_API_KEY") = false ->
     run_notte L W p s = (Ok (ResError None ErrApiKey), s)) /\
  (env s "NOTTE_API_KEY" = Some "SUA_CHAVE_API_PRO" ->
     str_truthy (env s "NOTTE_API_KEY") = true /\
     run_notte L W p s = (Ok (ResError None ErrApiKey), s)).
Proof.
  split; [eexists; split; reflexivity|]. split.
  - intros Hf. unfold run_notte, bind, get_env, getenv.
    destruct (env s "NOTTE_API_KEY") as [k|]; [|reflexivity].
    cbn in Hf. destruct (String.eqb k "") eqn:Hk; [|discriminate]. reflexivity.
  - intros Hk. split; [rewrite Hk; reflexivity|].
    unfold run_notte, bind, get_env, getenv. rewrite Hk. reflexivity.
Qed.


Lemma try_candidates_same_geo (L : Lib) (W : World) (a : sync_args) :
  skip_geo_check a = true ->
  forall cands le, respects (same_obs geo_of) (try_candidates L W a cands le).
Proof.
  intros Hskip cands. induction cands as [|cand rest IH]; intros le.
  - frames.
  - rewrite try_candidates_cons. unfold candidate_attempt, _set_env_proxy_vars,
      _session_with_proxies. rewrite Hskip. frames; apply IH.
Qed.

Lemma run_notte_sync_same_geo (L : Lib) (W : World) (a : sync_args) :
  skip_geo_check a = true -> respects (same_obs geo_of) (_run_notte_sync L W a).
Proof.
  intros Hskip.
  unfold _run_notte_sync, primary_phase, mcp_phase, build_candidates, router_candidate,
    _resolve_hostname, _discover_mcp_router_via_fastcloud, _session_with_proxies.
  pose proof (try_candidates_same_geo L W a Hskip) as Htc.
  repeat (first [apply Htc | frame_step]).
Qed.

(** With [skip_geo_check], [_run_notte_sync] never queries ipinfo.io: no
    egress check is recorded, whatever the collaborators do. *)
Theorem skip_geo_check_never_queries_ipinfo (L : Lib) (W : World) (a : sync_args)
  (s : state) (r : res result_dict) (s' : state) :
  skip_geo_check a = true ->
  _run_notte_sync L W a s = (r, s') ->
  flat_map geo_of (trace s') = flat_map geo_of (trace s).
Proof.
  intros Hskip H. exact (run_notte_sync_same_geo L W a Hskip s r s' H).
Qed.

Lemma try_candidates_same_from_country (L : Lib) (W : World) (a : sync_args) :
  forall cands le, respects (same_obs from_country_of) (try_candidates L W a cands le).
Proof.
  intros cands. induction cands as [|cand rest IH]; intros le.
  - frames.
  - rewrite try_candidates_cons. unfold candidate_attempt, _set_env_proxy_vars,
      _session_with_proxies, geo_gate, _is_ip_outside_brazil. frames; apply IH.
Qed.

Lemma run_notte_sync_same_from_country (L : Lib) (W : World) (a : sync_args) :
  force_use_mcp_router a = true ->
  respects (same_obs from_country_of) (_run_notte_sync L W a).
Proof.
  intros Hforce.
  unfold _run_notte_sync, primary_phase, mcp_phase, build_candidates, router_candidate,
    _resolve_hostname, _discover_mcp_router_via_fastcloud, _session_with_proxies.
  pose proof (try_candidates_same_from_country L W a) as Htc.
  rewrite Hforce. repeat (first [apply Htc | frame_step]).
Qed.

(** With [force_use_mcp_router], [_run_notte_sync] never asks for the
    SDK's Brazilian proxy ([NotteProxy.from_country("br")]). *)
Theorem forced_router_never_calls_from_country (L : Lib) (W : World) (a : sync_args)
  (s : state) (r : res result_dict) (s' : state) :
  force_use_mcp_router a = true ->
  _run_notte_sync L W a s = (r, s') ->
  flat_map from_country_of (trace s') = flat_map from_country_of (trace s).
Proof.
  intros Hforce H. exact (run_notte_sync_same_from_country L W a Hforce s r s' H).
Qed.

(** A successful loop returns a candidate of its list, and that candidate
    is the last one it tried. *)
Theorem loop_success_is_last_tried (L : Lib) (W : World) (a : sync_args) (cands : list json) :
  forall le s c ans s',
  try_candidates L W a cands le s = (Ok (ResOk mcp_proxy_used (Some c) ans), s') ->
  In c cands /\ exists pre, tried (trace s') = tried (trace s) ++ pre ++ [c].
Proof.
  induction cands as [|cand rest IH]; intros le s c ans s' H.
  - discriminate H.
  - rewrite try_candidates_cons in H. unfold bind at 1, emit at 1 in H.
    set (s1 := {| env := env s; trace := trace s ++ [EvTry cand] |}) in H.
    assert (T1 : tried (trace s1) = tried (trace s) ++ [cand]).
    { cbn. rewrite tried_app. reflexivity. }
    unfold bind at 1, lift at 1 in H.
    destruct (_make_notte_proxy_from_url L cand) as [po|e]; [|discriminate H].
    unfold bind at 1 in H.
    destruct ((match po with None => _set_env_proxy_vars cand | Some _ => ret tt end) s1)
      as [[u|e] s2] eqn:E2; [|discriminate H].
    assert (T2 : same_tried s1 s2) by
      (destruct po; [injection E2 as _ <-; reflexivity
                    | eapply set_env_proxy_vars_same_tried; exact E2]).
    apply candidate_attempt_cases in H as [[T3 [[ans' Hr] | [e He]]] | [rsn [s3 [T3 H3]]]].
    + injection Hr as <- _. split; [left; reflexivity|]. exists [].
      unfold same_obs in *; fold (tried (trace s)) in *; unfold tried in *.
      rewrite T3, T2. exact T1.
    + discriminate He.
    + destruct (IH _ _ _ _ _ H3) as [Hin [pre Hpre]]. split; [right; exact Hin|].
      exists (cand :: pre).
      unfold same_obs in *; fold (tried (trace s)) in *; unfold tried in *.
      rewrite Hpre, T3, T2, T1. rewrite <- app_assoc. reflexivity.
Qed.

Lemma lstrip_app (x y : string) :
  lstrip (x ++ y)%string = if String.eqb (lstrip x) "" then lstrip y else (lstrip x ++ y)%string.
Proof.
  induction x as [|c x IH]; [reflexivity|]. cbn.
  destruct (is_space c); [exact IH|reflexivity].
Qed.

Lemma lstrip_rev_space (x acc : string) :
  lstrip x = "" -> lstrip (rev_string x acc) = lstrip acc.
Proof.
  revert acc. induction x as [|c x IH]; intros acc Hx; [reflexivity|].
  cbn in Hx |- *. destruct (is_space c) eqn:Hc; [|discriminate Hx].
  rewrite IH by exact Hx. cbn. rewrite Hc. reflexivity.
Qed.

Lemma strip_space_prefix (pre x : string) :
  lstrip pre = "" -> strip (pre ++ x)%string = strip x.
Proof.
  intros Hp. unfold strip. rewrite lstrip_app, Hp. reflexivity.
Qed.

Lemma strip_space_suffix (x post : string) :
  lstrip post = "" -> strip (x ++ post)%string = strip x.
Proof.
  intros Hp. unfold strip. rewrite lstrip_app.
  destruct (String.eqb (lstrip x) "") eqn:Hx.
  - apply String.eqb_eq in Hx. rewrite Hx, Hp. reflexivity.
  - generalize (lstrip x) as z. intros z.
    assert (Hr : forall acc, rev_string (z ++ post)%string acc = rev_string post (rev_string z acc)).
    { induction z as [|c z IH]; intros acc; [reflexivity|]. cbn. apply IH. }
    rewrite Hr, lstrip_rev_space by exact Hp. reflexivity.
Qed.

Lemma ascii_lower_idem (c : ascii) : ascii_lower (ascii_lower c) = ascii_lower c.
Proof. destruct c as [[] [] [] [] [] [] [] []]; reflexivity. Qed.

Lemma is_space_ascii_lower (c : ascii) : is_space (ascii_lower c) = is_space c.
Proof. destruct c as [[] [] [] [] [] [] [] []]; reflexivity. Qed.

Lemma lower_idem (s : string) : lower (lower s) = lower s.
Proof. induction s as [|c s IH]; cbn; [reflexivity|]. rewrite ascii_lower_idem, IH. reflexivity. Qed.

Lemma lstrip_lower (s : string) : lstrip (lower s) = lower (lstrip s).
Proof.
  induction s as [|c s IH]; [reflexivity|]. cbn. rewrite is_space_ascii_lower.
  destruct (is_space c); [exact IH|reflexivity].
Qed.

Lemma rev_string_lower (s acc : string) : rev_string (lower s) (lower acc) = lower (rev_string s acc).
Proof.
  revert acc. induction s as [|c s IH]; intros acc; [reflexivity|]. cbn.
  exact (IH (String c acc)).
Qed.

Lemma strip_lower (s : string) : strip (lower s) = lower (strip s).
Proof.
  unfold strip. rewrite lstrip_lower.
  pose proof (rev_string_lower (lstrip s) "") as E1. cbn [lower] in E1. rewrite E1.
  rewrite lstrip_lower.
  pose proof (rev_string_lower (lstrip (rev_string (lstrip s) "")) "") as E2.
  cbn [lower] in E2. exact E2.
Qed.

(** [_str_to_bool] reads a value the same whatever whitespace surrounds it
    and whatever the case of its letters. *)
Theorem str_to_bool_ignores_space_and_case (pre v post : string) (d : bool) :
  lstrip pre = "" -> lstrip post = "" ->
  _str_to_bool (Some (pre ++ lower v ++ post)%string) d = _str_to_bool (Some v) d.
Proof.
  intros Hpre Hpost. unfold _str_to_bool.
  rewrite strip_space_prefix, strip_space_suffix, strip_lower, lower_idem by assumption.
  reflexivity.
Qed.

Lemma run_notte_key_ok (L : Lib) (W : World) (p : run_params) (s : state) (k : string) :
  env s "NOTTE_API_KEY" = Some k -> k <> "" -> k <> "SUA_CHAVE_API_PRO" ->
  run_notte L W p s = _run_notte_sync L W (final_args (env s) k p) s.
Proof.
  intros Hk H1 H2. apply String.eqb_neq in H1, H2.
  unfold run_notte, bind, get_env, getenv. rewrite Hk, H1, H2. reflexivity.
Qed.

(** [run_notte] never asks for the SDK's Brazilian proxy when the
    [use_mcp_router] parameter is [True], or when it is absent and
    [FORCE_USE_MCP_ROUTER] reads true. *)
Theorem run_notte_use_mcp_router_skips_from_country (L : Lib) (W : World)
  (p : run_params) (s : state) (r : res result_dict) (s' : state) :
  (p_use_mcp_router p = Some true \/
   (p_use_mcp_router p = None /\
    _str_to_bool (Some (getenv (env s) "FORCE_USE_MCP_ROUTER" "False")) false = true)) ->
  run_notte L W p s = (r, s') ->
  flat_map from_country_of (trace s') = flat_map from_country_of (trace s).
Proof.
  intros Hf H. destruct (env s "NOTTE_API_KEY") as [k|] eqn:Hk.
  - destruct (String.eqb k "" || String.eqb k "SUA_CHAVE_API_PRO") eqn:Hbad.
    + unfold run_notte, bind, get_env, getenv in H. rewrite Hk, Hbad in H.
      injection H as _ <-. reflexivity.
    + apply orb_false_iff in Hbad as [H1 H2]. apply String.eqb_neq in H1, H2.
      rewrite (run_notte_key_ok L W p s k Hk H1 H2) in H.
      refine (run_notte_sync_same_from_country L W _ _ s r s' H).
      cbn. destruct Hf as [-> | [-> Hb]]; [reflexivity | exact Hb].
  - unfold run_notte, bind, get_env, getenv in H. rewrite Hk in H.
    injection H as _ <-. reflexivity.
Qed.

(** [run_notte] never queries ipinfo.io when the [skip_geo_check]
    parameter is [True], or when it is absent and [SKIP_GEO_CHECK] reads
    true. *)
Theorem run_notte_skip_geo_check_skips_ipinfo (L : Lib) (W : World)
  (p : run_params) (s : state) (r : res result_dict) (s' : state) :
  (p_skip_geo_check p = Some true \/
   (p_skip_geo_check p = None /\
    _str_to_bool (Some (getenv (env s) "SKIP_GEO_CHECK" "False")) false = true)) ->
  run_notte L W p s = (r, s') ->
  flat_map geo_of (trace s') = flat_map geo_of (trace s).
Proof.
  intros Hf H. destruct (env s "NOTTE_API_KEY") as [k|] eqn:Hk.
  - destruct (String.eqb k "" || String.eqb k "SUA_CHAVE_API_PRO") eqn:Hbad.
    + unfold run_notte, bind, get_env, getenv in H. rewrite Hk, Hbad in H.
      injection H as _ <-. reflexivity.
    + apply orb_false_iff in Hbad as [H1 H2]. apply String.eqb_neq in H1, H2.
      rewrite (run_notte_key_ok L W p s k Hk H1 H2) in H.
      refine (run_notte_sync_same_geo L W _ _ s r s' H).
      cbn. destruct Hf as [-> | [-> Hb]]; [reflexivity | exact Hb].
  - unfold run_notte, bind, get_env, getenv in H. rewrite Hk in H.
    injection H as _ <-. reflexivity.
Qed.








Lemma strip_blank (v : string) : lstrip v = "" -> strip v = "".
Proof. intros Hv. unfold strip. rewrite Hv. reflexivity. Qed.

(** With [use_mcp_router=True] and [MCP_PROXY_URL], [MCP_ROUTER_HOSTNAME]
    and [FASTCLOUD_API_URL] unset or blank, [run_notte] with an accepted
    key answers [no_mcp_candidates] without opening a session, unless the
    client constructor raises. *)
Theorem run_notte_blank_router_settings (L : Lib) (W : World) (p : run_params) (s : state)
  (k : string) (r : res result_dict) (s' : state) :
  p_use_mcp_router p = Some true ->
  env s "NOTTE_API_KEY" = Some k -> k <> "" -> k <> "SUA_CHAVE_API_PRO" ->
  lstrip (getenv (env s) "MCP_PROXY_URL" "") = "" ->
  lstrip (getenv (env s) "MCP_ROUTER_HOSTNAME" "") = "" ->
  lstrip (getenv (env s) "FASTCLOUD_API_URL" "") = "" ->
  run_notte L W p s = (r, s') ->
  sessions (trace s') = sessions (trace s) /\
  (r = Ok (ResError (Some no_mcp_candidates) ErrNoCandidates) \/
   exists e, notte_client W k = Raise e /\ r = Raise e).
Proof.
  intros Hf Hk H1 H2 Hm Hr Hfc H.
  rewrite (run_notte_key_ok L W p s k Hk H1 H2) in H.
  unfold _run_notte_sync, primary_phase, mcp_phase, build_candidates, bind, emit, lift, ret in H.
  cbn [final_args api_key force_use_mcp_router mcp_proxy_url mcp_router_hostname
       fastcloud_api_url fastcloud_api_token] in H.
  rewrite Hf, (strip_blank _ Hm), (strip_blank _ Hr), (strip_blank _ Hfc) in H.
  destruct (notte_client W k) as [u|e]; cbn in H; injection H as <- <-.
  - split; [|left; reflexivity]. unfold sessions. cbn. rewrite flat_map_app. cbn.
    apply app_nil_r.
  - split; [|right; exists e; split; reflexivity]. unfold sessions. cbn.
    rewrite flat_map_app. cbn. apply app_nil_r.
Qed.

(** *** Instances of the further properties *)








Lemma skip_geo_check_never_queries_ipinfo_witness :
  flat_map geo_of (trace (snd (_run_notte_sync sample_lib (sample_world (Ok tt) geo_by_route all_fail)
                                 (sample_args true true (Some u_bad) None) (start []))))
  = flat_map geo_of (trace (start [])).
Proof.
  exact (let x := _run_notte_sync sample_lib (sample_world (Ok tt) geo_by_route all_fail)
                     (sample_args true true (Some u_bad) None) (start []) in
         skip_geo_check_never_queries_ipinfo sample_lib (sample_world (Ok tt) geo_by_route all_fail)
           (sample_args true true (Some u_bad) None) (start []) (fst x) (snd x)
           eq_refl (surjective_pairing x)).
Defined.

Lemma forced_router_never_calls_from_country_witness :
  flat_map from_country_of
    (trace (snd (_run_notte_sync sample_lib (sample_world (Ok tt) geo_by_route all_fail)
                   (sample_args true false (Some u_bad) None) (start []))))
  = flat_map from_country_of (trace (start [])).
Proof.
  exact (let x := _run_notte_sync sample_lib (sample_world (Ok tt) geo_by_route all_fail)
                     (sample_args true false (Some u_bad) None) (start []) in
         forced_router_never_calls_from_country sample_lib (sample_world (Ok tt) geo_by_route all_fail)
           (sample_args true false (Some u_bad) None) (start []) (fst x) (snd x)
           eq_refl (surjective_pairing x)).
Defined.

Lemma loop_success_is_last_tried_witness :
  In (JStr u_good) [JStr u_bad; JStr u_good] /\
  exists pre,
    tried (trace (snd (try_candidates sample_lib (sample_world (Ok tt) geo_by_route direct_fails)
                         (sample_args true true None None) [JStr u_bad; JStr u_good] None (start []))))
    = tried (trace (start [])) ++ pre ++ [JStr u_good].
Proof.
  exact (let x := try_candidates sample_lib (sample_world (Ok tt) geo_by_route direct_fails)
                     (sample_args true true None None) [JStr u_bad; JStr u_good] None (start []) in
         loop_success_is_last_tried sample_lib (sample_world (Ok tt) geo_by_route direct_fails)
           (sample_args true true None None) [JStr u_bad; JStr u_good] None (start [])
           (JStr u_good) (JStr "resumo") (snd x) (surjective_pairing x)).
Defined.

Lemma str_to_bool_ignores_space_and_case_witness :
  _str_to_bool (Some (" " ++ lower "Yes" ++ " ")%string) false = _str_to_bool (Some "Yes") false.
Proof.
  exact (str_to_bool_ignores_space_and_case " " "Yes" " " false eq_refl eq_refl).
Defined.

Lemma run_notte_use_mcp_router_skips_from_country_witness :
  let s := start [("NOTTE_API_KEY", "k"); ("FORCE_USE_MCP_ROUTER", " True ");
                  ("MCP_PROXY_URL", u_bad)] in
  flat_map from_country_of
    (trace (snd (run_notte sample_lib (sample_world (Ok tt) geo_by_route all_fail) no_params s)))
  = flat_map from_country_of (trace s).
Proof.
  exact (let s := start [("NOTTE_API_KEY", "k"); ("FORCE_USE_MCP_ROUTER", " True "); ("MCP_PROXY_URL", u_bad)] in
         let x := run_notte sample_lib (sample_world (Ok tt) geo_by_route all_fail) no_params s in
         run_notte_use_mcp_router_skips_from_country sample_lib
           (sample_world (Ok tt) geo_by_route all_fail) no_params s (fst x) (snd x)
           (or_intror (conj eq_refl eq_refl)) (surjective_pairing x)).
Defined.

Lemma run_notte_skip_geo_check_skips_ipinfo_witness :
  let s := start [("NOTTE_API_KEY", "k"); ("SKIP_GEO_CHECK", "yes");
                  ("MCP_PROXY_URL", u_bad)] in
  flat_map geo_of
    (trace (snd (run_notte sample_lib (sample_world (Ok tt) geo_by_route all_fail) no_params s)))
  = flat_map geo_of (trace s).
Proof.
  exact (let s := start [("NOTTE_API_KEY", "k"); ("SKIP_GEO_CHECK", "yes"); ("MCP_PROXY_URL", u_bad)] in
         let x := run_notte sample_lib (sample_world (Ok tt) geo_by_route all_fail) no_params s in
         run_notte_skip_geo_check_skips_ipinfo sample_lib
           (sample_world (Ok tt) geo_by_route all_fail) no_params s (fst x) (snd x)
           (or_intror (conj eq_refl eq_refl)) (surjective_pairing x)).
Defined.


Lemma run_notte_blank_router_settings_witness :
  let s := start [("NOTTE_API_KEY", "k"); ("MCP_PROXY_URL", "  ")] in
  sessions (trace (snd (run_notte sample_lib (sample_world (Ok tt) geo_by_route answer_ok) forced s)))
    = sessions (trace s) /\
  (fst (run_notte sample_lib (sample_world (Ok tt) geo_by_route answer_ok) forced s)
     = Ok (ResError (Some no_mcp_candidates) ErrNoCandidates) \/
   exists e, notte_client (sample_world (Ok tt) geo_by_route answer_ok) "k" = Raise e /\
     fst (run_notte sample_lib (sample_world (Ok tt) geo_by_route answer_ok) forced s) = Raise e).
Proof.
  exact (run_notte_blank_router_settings sample_lib (sample_world (Ok tt) geo_by_route answer_ok)
           forced (start [("NOTTE_API_KEY", "k"); ("MCP_PROXY_URL", "  ")]) "k"
           (fst (run_notte sample_lib (sample_world (Ok tt) geo_by_route answer_ok) forced
                   (start [("NOTTE_API_KEY", "k"); ("MCP_PROXY_URL", "  ")])))
           (snd (run_notte sample_lib (sample_world (Ok tt) geo_by_route answer_ok) forced
                   (start [("NOTTE_API_KEY", "k"); ("MCP_PROXY_URL", "  ")])))
           eq_refl eq_refl ltac:(discriminate) ltac:(discriminate) eq_refl eq_refl eq_refl
           (surjective_pairing _)).
Defined.
